(** * CO2 footprint tracker (app.py): emission calculator and log store

    The calculator works on Python floats, which are IEEE 754 binary64
    numbers.  They are modelled by the Standard Library's executable
    specification of binary floating point ([SpecFloat], precision 53,
    maximal exponent 1024), so that every [+], [-], [*], [/] below rounds
    exactly as the interpreter does, signed zeros, infinities and NaN
    included.  Python's [round(x, n)] is written out on integers.

    The log store is the [logs] table of the SQLite file: the list of its
    rows in insertion order. *)

From Stdlib Require Import ZArith QArith Lqa List Bool String Ascii Lia.
From Stdlib Require Import Permutation Sorted.
From Stdlib Require Import Floats.SpecFloat.
Import ListNotations.
Local Open Scope Z_scope.

(** ** Python numbers *)

Module PyFloat.

Definition prec : Z := 53.
Definition emax : Z := 1024.

Definition float : Type := spec_float.

Definition pos_zero : float := S754_zero false.
Definition neg_zero : float := S754_zero true.
Definition pos_inf : float := S754_infinity false.
Definition nan : float := S754_nan.

Definition add : float -> float -> float := SFadd prec emax.
Definition sub : float -> float -> float := SFsub prec emax.
Definition mul : float -> float -> float := SFmul prec emax.
Definition div : float -> float -> float := SFdiv prec emax.

(** [x < y], [x <= y] and [x == y]; all three are false on NaN. *)
Definition ltb : float -> float -> bool := SFltb.
Definition leb : float -> float -> bool := SFleb.
Definition eqb : float -> float -> bool := SFeqb.

(** The double nearest to the fraction [n/d]: the value of a decimal
    literal such as [0.192] (n = 192, d = 1000). *)
Definition literal (n d : positive) : float :=
  div (S754_finite false n 0) (S754_finite false d 0).

(** [float(z)] for a Python int, rounded to nearest even. *)
Definition of_int (z : Z) : float := binary_normalize prec emax z 0 false.

(** [x / y] raises ZeroDivisionError when [y == 0]. *)
Definition truediv (x y : float) : option float :=
  if eqb y pos_zero then None else Some (div x y).

(** The builtin [max(a, b)]: [b] replaces [a] only when [b > a]. *)
Definition max (a b : float) : float := if ltb a b then b else a.

(** Quotient of [num] by [den > 0] rounded to the nearest integer, ties to
    the even one. *)
Definition round_half_even (num den : Z) : Z :=
  let q := num / den in
  let r := num mod den in
  match 2 * r ?= den with
  | Lt => q
  | Gt => q + 1
  | Eq => if Z.even q then q else q + 1
  end.

(** The integer nearest to [m * 2^e * 10^n]. *)
Definition scaled (m : positive) (e : Z) (n : Z) : Z :=
  match e with
  | Zneg p => round_half_even (Zpos m * 10 ^ n) (2 ^ Zpos p)
  | _ => Zpos m * 2 ^ e * 10 ^ n
  end.

(** [round(x, n)] for [0 <= n]: the exact value of [x] is rounded to [n]
    decimals (half to even) and the decimal obtained is converted back to
    the nearest double; the sign of [x] is kept, infinities and NaN are
    returned as they are. *)
Definition round (x : float) (n : Z) : float :=
  match x with
  | S754_finite s m e =>
      match scaled m e n with
      | Zpos k => div (S754_finite s k 0) (S754_finite false (Z.to_pos (10 ^ n)) 0)
      | _ => S754_zero s
      end
  | _ => x
  end.

End PyFloat.

Abbreviation float := PyFloat.float.

(** A Python number as the program meets it: the form gives ints for the
    three counters and floats for the four measures. *)
Inductive number : Type :=
| Int (z : Z)
| Float (f : float).

Definition as_float (x : number) : float :=
  match x with
  | Int z => PyFloat.of_int z
  | Float f => f
  end.

(** [x * c] for a float [c]: an int operand is converted first. *)
Definition times (x : number) (c : float) : float := PyFloat.mul (as_float x) c.

(** [round(x, n)]: an int is returned unchanged when [0 <= n]. *)
Definition round_number (x : number) (n : Z) : number :=
  match x with
  | Int z => Int z
  | Float f => Float (PyFloat.round f n)
  end.

(** [x >= 0] *)
Definition non_negative (x : number) : bool :=
  match x with
  | Int z => 0 <=? z
  | Float f => PyFloat.leb PyFloat.pos_zero f
  end.

(** ** Configuration *)

Record emission_factors : Type := {
  transport_km_car : float;
  transport_km_bus : float;
  transport_km_bike_walk : float;
  electricity_kwh_factor : float;
  meat_meal : float;
  veg_meal : float;
  plastic_item : float
}.

Definition EMISSION_FACTORS : emission_factors := {|
  transport_km_car := PyFloat.literal 192 1000;
  transport_km_bus := PyFloat.literal 89 1000;
  transport_km_bike_walk := PyFloat.pos_zero;
  electricity_kwh_factor := PyFloat.literal 82 100;
  meat_meal := PyFloat.literal 5 1;
  veg_meal := PyFloat.literal 2 1;
  plastic_item := PyFloat.literal 1 10
|}.

Record baseline_assumptions : Type := {
  car_km_per_day : number;
  electricity_kwh_per_day : number;
  meat_meals_per_day : number;
  plastic_items_per_day : number
}.

Definition BASELINE : baseline_assumptions := {|
  car_km_per_day := Int 10;
  electricity_kwh_per_day := Int 4;
  meat_meals_per_day := Int 1;
  plastic_items_per_day := Int 2
|}.

(** ** Calculation *)

Definition calculate_co2
    (car_km bus_km bike_walk_km electricity_kwh
     meat_meals veg_meals plastic_items_avoided : number) : float :=
  let e := EMISSION_FACTORS in
  let co2 := PyFloat.pos_zero in
  let co2 := PyFloat.add co2 (times car_km (transport_km_car e)) in
  let co2 := PyFloat.add co2 (times bus_km (transport_km_bus e)) in
  let co2 := PyFloat.add co2 (times bike_walk_km (transport_km_bike_walk e)) in
  let co2 := PyFloat.add co2 (times electricity_kwh (electricity_kwh_factor e)) in
  let co2 := PyFloat.add co2 (times meat_meals (meat_meal e)) in
  let co2 := PyFloat.add co2 (times veg_meals (veg_meal e)) in
  let co2 := PyFloat.sub co2 (times plastic_items_avoided (plastic_item e)) in
  PyFloat.round co2 3.


(** [baseline_daily_co2] reads the two tables; the tables are arguments
    here and the program's call is the instance at the configured ones. *)
Definition baseline_daily_co2_of (b : baseline_assumptions) (e : emission_factors) : float :=
  let base := PyFloat.pos_zero in
  let base := PyFloat.add base (times (car_km_per_day b) (transport_km_car e)) in
  let base := PyFloat.add base (times (electricity_kwh_per_day b) (electricity_kwh_factor e)) in
  let base := PyFloat.add base (times (meat_meals_per_day b) (meat_meal e)) in
  let base := PyFloat.add base (times (plastic_items_per_day b) (plastic_item e)) in
  PyFloat.round base 3.

Definition baseline_daily_co2 : float := baseline_daily_co2_of BASELINE EMISSION_FACTORS.

(** Lines 146-147 of [main]: the saving against a baseline and its
    percentage. *)
Definition saved_vs_baseline (baseline co2 : float) : float :=
  PyFloat.round (PyFloat.max PyFloat.pos_zero (PyFloat.sub baseline co2)) 3.

(** [None] is an uncaught ZeroDivisionError. *)
Definition saved_pct (baseline co2 : float) : option number :=
  let saved := saved_vs_baseline baseline co2 in
  if PyFloat.ltb PyFloat.pos_zero baseline then
    match PyFloat.truediv saved baseline with
    | Some q => Some (round_number (Float (PyFloat.mul q (as_float (Int 100)))) 2)
    | None => None
    end
  else Some (round_number (Int 0) 2).

(** The percentage shown for seven inputs of the form. *)
Definition submission_pct
    (car_km bus_km bike_walk_km electricity_kwh
     meat_meals veg_meals plastic_items_avoided : number) : option number :=
  saved_pct baseline_daily_co2
    (calculate_co2 car_km bus_km bike_walk_km electricity_kwh
       meat_meals veg_meals plastic_items_avoided).

(** [0 <= pct] and [pct <= 100] *)
Definition pct_at_least_0 (pct : number) : bool := non_negative pct.

Definition pct_at_most_100 (pct : number) : bool :=
  match pct with
  | Int z => z <=? 100
  | Float f => PyFloat.leb f (PyFloat.of_int 100)
  end.

(** ** Log store *)

(** The dict handed to [insert_log]: the eleven bound values. *)
Record entry : Type := {
  user : string;
  date : string;
  car_km : float;
  bus_km : float;
  bike_walk_km : float;
  electricity_kwh : float;
  meat_meals : Z;
  veg_meals : Z;
  plastic_items_avoided : Z;
  co2_kg : float;
  created_at : string
}.

(** A row of [logs]: the INTEGER PRIMARY KEY and the eleven columns. *)
Record row : Type := {
  id : Z;
  fields : entry
}.

(** The table, oldest row first. *)
Definition store : Type := list row.

(** [init_db]: CREATE TABLE IF NOT EXISTS gives an empty table when the
    file has none and leaves an existing one as it is. *)
Definition init_db (db : option store) : store :=
  match db with
  | None => []
  | Some conn => conn
  end.

(** The key SQLite gives a row inserted without one: one more than the
    largest key in the table, 1 in an empty table. *)
Definition next_id (conn : store) : Z :=
  1 + fold_right (fun r acc => Z.max (id r) acc) 0 conn.

Definition insert_log (conn : store) (data : entry) : store :=
  conn ++ [ {| id := next_id conn; fields := data |} ].

(** ORDER BY date ASC on a TEXT column: bytewise order of the strings.
    Rows of equal date keep their table order. *)
Fixpoint insert_by_date (r : row) (l : list row) : list row :=
  match l with
  | [] => [r]
  | x :: l' =>
      if String.leb (date (fields r)) (date (fields x))
      then r :: x :: l'
      else x :: insert_by_date r l'
  end.

Definition order_by_date (l : list row) : list row :=
  fold_right insert_by_date [] l.

(** Truth value of the [user] argument: [None] and the empty string are
    false. *)
Definition truthy (u : option string) : bool :=
  match u with
  | None => false
  | Some s => negb (String.eqb s EmptyString)
  end.

Definition has_user (u : string) (r : row) : bool := String.eqb (user (fields r)) u.

(** The rows of the data frame [fetch_logs] returns, in order. *)
Definition fetch_logs (conn : store) (u : option string) : list row :=
  match u with
  | Some s =>
      if truthy u
      then order_by_date (filter (has_user s) conn)
      else order_by_date conn
  | None => order_by_date conn
  end.

Definition insert_all (conn : store) (es : list entry) : store :=
  fold_left insert_log es conn.

(** ** The form and its submission *)

Module Form.

(** Values of the widgets when the form is submitted; [date_input] is
    held as its ISO text. *)
Record t : Type := {
  date_input : string;
  car_km : float;
  bus_km : float;
  bike_walk_km : float;
  electricity_kwh : float;
  meat_meals : Z;
  veg_meals : Z;
  plastic_items_avoided : Z
}.


End Form.

Definition form_co2 (f : Form.t) : float :=
  calculate_co2 (Float (Form.car_km f)) (Float (Form.bus_km f))
    (Float (Form.bike_walk_km f)) (Float (Form.electricity_kwh f))
    (Int (Form.meat_meals f)) (Int (Form.veg_meals f))
    (Int (Form.plastic_items_avoided f)).

(** The [record] dict of [main]; [now] is [datetime.now().isoformat()]. *)
Definition record (usr : string) (f : Form.t) (co2 : float) (now : string) : entry := {|
  user := usr;
  date := Form.date_input f;
  car_km := Form.car_km f;
  bus_km := Form.bus_km f;
  bike_walk_km := Form.bike_walk_km f;
  electricity_kwh := Form.electricity_kwh f;
  meat_meals := Form.meat_meals f;
  veg_meals := Form.veg_meals f;
  plastic_items_avoided := Form.plastic_items_avoided f;
  co2_kg := co2;
  created_at := now
|}.

(** The [if submitted:] block.  The percentage is computed before the
    insert, so a fault there ([None]) would leave the table as it was. *)
Definition on_submit (conn : store) (usr : string) (f : Form.t) (now : string)
  : option store :=
  let co2 := form_co2 f in
  match saved_pct baseline_daily_co2 co2 with
  | Some _ => Some (insert_log conn (record usr f co2 now))
  | None => None
  end.

(** One run of [main]: the table it leaves behind.  The reads of the
    sidebar, the dashboard and the admin view do not write. *)
Definition main (db : option store) (usr : string) (submitted : option (Form.t * string))
  : store :=
  let conn := init_db db in
  match submitted with
  | Some (f, now) =>
      match on_submit conn usr f now with
      | Some conn' => conn'
      | None => conn
      end
  | None => conn
  end.



(** Every statement the program sends to the table. *)
Inductive statement : Type :=
| CreateTableIfNotExists
| InsertInto (data : entry)
| SelectOrderByDate (u : option string).

Definition execute (st : statement) (conn : store) : store :=
  match st with
  | CreateTableIfNotExists => init_db (Some conn)
  | InsertInto data => insert_log conn data
  | SelectOrderByDate _ => conn
  end.

Definition date_le (r1 r2 : row) : Prop :=
  String.leb (date (fields r1)) (date (fields r2)) = true.

Definition f_2_5 : float := Eval vm_compute in PyFloat.literal 5 2.
Definition f_0_5 : float := Eval vm_compute in PyFloat.literal 1 2.
Definition f_0_1 : float := Eval vm_compute in PyFloat.literal 1 10.
Definition f_4_462 : float := Eval vm_compute in PyFloat.literal 4462 1000.


Definition sample_entry (usr day now : string) : entry :=
  record usr
    {| Form.date_input := day;
       Form.car_km := f_2_5;
       Form.bus_km := PyFloat.pos_zero;
       Form.bike_walk_km := f_0_5;
       Form.electricity_kwh := f_0_1;
       Form.meat_meals := 0;
       Form.veg_meals := 2;
       Form.plastic_items_avoided := 1 |}
    f_4_462 now.

(** A table of baseline assumptions with nothing in it. *)
Definition NO_BASELINE : baseline_assumptions := {|
  car_km_per_day := Int 0;
  electricity_kwh_per_day := Int 0;
  meat_meals_per_day := Int 0;
  plastic_items_per_day := Int 0
|}.



(** ** Facts about the log store *)

Section StoreFacts.

Lemma insert_by_date_perm (r : row) (l : list row) :
  Permutation (insert_by_date r l) (r :: l).
Proof.
  induction l as [|x l IH]; simpl.
  - apply Permutation_refl.
  - destruct (String.leb _ _).
    + apply Permutation_refl.
    + eapply perm_trans; [apply perm_skip, IH | apply perm_swap].
Qed.

Lemma order_by_date_perm (l : list row) : Permutation (order_by_date l) l.
Proof.
  induction l as [|x l IH]; simpl.
  - constructor.
  - eapply perm_trans; [apply insert_by_date_perm | now apply perm_skip].
Qed.

Lemma insert_by_date_hd (r x : row) (l : list row) :
  date_le x r -> HdRel date_le x l -> HdRel date_le x (insert_by_date r l).
Proof.
  intros Hxr Hhd. destruct l as [|y l]; simpl.
  - now constructor.
  - destruct (String.leb _ _); constructor; trivial.
    now inversion Hhd.
Qed.

Lemma insert_by_date_sorted (r : row) (l : list row) :
  Sorted date_le l -> Sorted date_le (insert_by_date r l).
Proof.
  induction 1 as [|x l Hs IH Hhd]; simpl.
  - repeat constructor.
  - destruct (String.leb (date (fields r)) (date (fields x))) eqn:E.
    + constructor; [now constructor | now constructor].
    + constructor; trivial.
      apply insert_by_date_hd; trivial.
      unfold date_le.
      destruct (String.leb_total (date (fields r)) (date (fields x))); congruence.
Qed.

Lemma order_by_date_sorted (l : list row) : Sorted date_le (order_by_date l).
Proof.
  induction l; simpl; [constructor | now apply insert_by_date_sorted].
Qed.

Lemma order_by_date_length (l : list row) :
  List.length (order_by_date l) = List.length l.
Proof. apply Permutation_length, order_by_date_perm. Qed.


Lemma insert_all_prefix (es : list entry) (conn : store) :
  exists added, insert_all conn es = conn ++ added /\ map fields added = es.
Proof.
  revert conn. induction es as [|e es IH]; intros conn.
  - exists []. simpl. now rewrite app_nil_r.
  - destruct (IH (insert_log conn e)) as [added [Heq Hmap]].
    exists ({| id := next_id conn; fields := e |} :: added). split.
    + change (insert_all conn (e :: es)) with (insert_all (insert_log conn e) es).
      rewrite Heq. unfold insert_log. now rewrite <- app_assoc.
    + simpl. now rewrite Hmap.
Qed.


Lemma filter_none (u : string) (conn : store) :
  Forall (fun r => user (fields r) <> u) conn -> filter (has_user u) conn = [].
Proof.
  induction 1 as [|r l Hr _ IH]; simpl; trivial.
  unfold has_user at 1. apply String.eqb_neq in Hr. now rewrite Hr.
Qed.

Lemma truthy_nonempty (u : string) : u <> EmptyString -> truthy (Some u) = true.
Proof. intros H. simpl. apply String.eqb_neq in H. now rewrite H. Qed.

Lemma fetch_nonempty (conn : store) (u : string) :
  u <> EmptyString ->
  fetch_logs conn (Some u) = order_by_date (filter (has_user u) conn).
Proof. intros H. unfold fetch_logs. now rewrite truthy_nonempty. Qed.


End StoreFacts.

(** ** Reading the store *)




(** C9 (as amended): for a non-empty label with no stored row, in any table,
    [fetch_logs] returns the empty result. *)
Theorem fetch_unknown_user_is_empty (conn : store) (U : string) :
  U <> EmptyString ->
  Forall (fun r => user (fields r) <> U) conn ->
  fetch_logs conn (Some U) = [].
Proof.
  intros HU Hconn. rewrite fetch_nonempty by assumption.
  now rewrite filter_none.
Qed.

Lemma fetch_unknown_user_is_empty_witness :
  fetch_logs (insert_log (init_db None) (sample_entry "bob" "2024-05-03" "t0"))
    (Some "alice"%string) = [].
Proof.
  apply fetch_unknown_user_is_empty.
  - discriminate.
  - repeat constructor. discriminate.
Defined.

(** C9 fails for the empty label: no row carries it, yet the fetch returns
    the row of another user. *)
Lemma fetch_empty_label_not_empty :
  let conn := insert_log (init_db None) (sample_entry "bob" "2024-05-03" "t0") in
  Forall (fun r => user (fields r) <> EmptyString) conn
  /\ fetch_logs conn (Some EmptyString) <> [].
Proof.
  intros conn. split.
  - repeat constructor. discriminate.
  - discriminate.
Qed.

(** C10: with the empty string as label, [fetch_logs] returns every row of
    the table, of every user, ordered by date, exactly as the call without a
    label does; rows whose user is the empty string change nothing.  The
    filter is applied to the other labels only. *)
Theorem fetch_empty_label_returns_all (conn : store) :
  fetch_logs conn (Some EmptyString) = fetch_logs conn None
  /\ fetch_logs conn (Some EmptyString) = order_by_date conn
  /\ Permutation (fetch_logs conn (Some EmptyString)) conn
  /\ Sorted date_le (fetch_logs conn (Some EmptyString))
  /\ forall c : ascii, forall u : string,
       fetch_logs conn (Some (String c u))
       = order_by_date (filter (has_user (String c u)) conn).
Proof.
  repeat split.
  - apply order_by_date_perm.
  - apply order_by_date_sorted.
Qed.

(** ** Writing the store *)



(** C6: [insert_log] leaves the rows already stored as they are and in
    place, and so does every statement the program executes and every run of
    [main]: the table only grows at its end, by at most one row a run. *)
Theorem logs_append_only :
  (forall conn data, exists r, insert_log conn data = conn ++ [r])
  /\ (forall st conn, exists added, execute st conn = conn ++ added)
  /\ (forall conn usr submitted,
        exists added, main (Some conn) usr submitted = conn ++ added
                      /\ (List.length added <= 1)%nat).
Proof.
  repeat split.
  - intros conn data. now eexists.
  - intros [|data|u] conn; simpl.
    + exists []. now rewrite app_nil_r.
    + now eexists.
    + exists []. now rewrite app_nil_r.
  - intros conn usr [[f now]|]; unfold main, on_submit; cbn [init_db].
    + destruct (saved_pct _ _).
      * eexists. split; [reflexivity | simpl; lia].
      * exists []. rewrite app_nil_r. split; [reflexivity | simpl; lia].
    + exists []. rewrite app_nil_r. split; [reflexivity | simpl; lia].
Qed.

(** ** Facts about the calculator *)

Section CalculatorFacts.






(** [x == 0.0] holds of the two zeros only. *)
Lemma eqb_zero (x : float) :
  PyFloat.eqb x PyFloat.pos_zero = true -> exists s, x = S754_zero s.
Proof.
  destruct x as [s|[|]| |[|] m e]; cbv [PyFloat.eqb PyFloat.pos_zero SFeqb SFcompare];
    try discriminate.
  now exists s.
Qed.

Lemma ltb_zero_positive (x : float) :
  PyFloat.ltb PyFloat.pos_zero x = true ->
  x = PyFloat.pos_inf \/ exists m e, x = S754_finite false m e.
Proof.
  destruct x as [s|[|]| |[|] m e];
    cbv [PyFloat.ltb PyFloat.pos_zero PyFloat.pos_inf SFltb SFcompare];
    try discriminate; eauto.
Qed.




End CalculatorFacts.

(** ** The calculator *)


(** C7: some non-negative inputs give a strictly negative result: ten
    plastic items avoided and nothing else give -1.0. *)
Theorem calculate_co2_can_be_negative :
  exists car_km bus_km bike_walk_km electricity_kwh
         meat_meals veg_meals plastic_items_avoided : number,
    Forall (fun x => non_negative x = true)
      [car_km; bus_km; bike_walk_km; electricity_kwh;
       meat_meals; veg_meals; plastic_items_avoided]
    /\ PyFloat.ltb
         (calculate_co2 car_km bus_km bike_walk_km electricity_kwh
            meat_meals veg_meals plastic_items_avoided)
         PyFloat.pos_zero = true
    /\ calculate_co2 car_km bus_km bike_walk_km electricity_kwh
         meat_meals veg_meals plastic_items_avoided
       = PyFloat.of_int (-1).
Proof.
  exists (Float PyFloat.pos_zero), (Float PyFloat.pos_zero), (Float PyFloat.pos_zero),
    (Float PyFloat.pos_zero), (Int 0), (Int 0), (Int 10).
  repeat split; try (vm_compute; reflexivity).
  repeat constructor.
Qed.

(** C8: when the baseline is zero the percentage is 0 for every co2 value,
    and no division is attempted. *)
Theorem zero_baseline_gives_zero_pct (baseline co2 : float) :
  PyFloat.eqb baseline PyFloat.pos_zero = true ->
  saved_pct baseline co2 = Some (Int 0).
Proof.
  intros Hz. apply eqb_zero in Hz. destruct Hz as [s ->].
  unfold saved_pct. reflexivity.
Qed.

Lemma zero_baseline_gives_zero_pct_witness :
  baseline_daily_co2_of NO_BASELINE EMISSION_FACTORS = PyFloat.pos_zero
  /\ saved_pct (baseline_daily_co2_of NO_BASELINE EMISSION_FACTORS) f_4_462 = Some (Int 0).
Proof.
  split.
  - vm_compute. reflexivity.
  - apply (zero_baseline_gives_zero_pct
             (baseline_daily_co2_of NO_BASELINE EMISSION_FACTORS) f_4_462).
    vm_compute. reflexivity.
Defined.

(** ** The stored footprint *)


